(** * StochasticDepth: a verified model of
      [keras_cv/layers/regularization/stochastic_depth.py]

    The layer combines the two branches of a residual block,
    [x = [shortcut; residual]]:
    - at train time it returns [shortcut + b_l * residual], where [b_l] is one
      Bernoulli sample shared by the whole batch;
    - at test time it returns [shortcut + survival_probability * residual].

    The Python methods [__init__], [call] and [get_config] are embedded as
    Rocq functions.  What the layer takes from TensorFlow is modelled next to
    it: float32 arithmetic (IEEE 754 binary32, from [SpecFloat], with or
    without subnormals as the kernels have it), tensors as buffers of float32
    values, the random backend as a source of uniform samples that counts its
    draws, and the [Layer] base class as an interface. *)

From Stdlib Require Import ZArith List String Ascii Bool Lia DecimalString.
From Stdlib Require Import Floats.
From Stdlib Require Import DecimalNat.
From stdpp Require Import gmap strings list fin_maps.

Local Open Scope Z_scope.

(** ** Python values and exceptions *)

(** The values a layer configuration holds.  A Python [float] is an IEEE 754
    binary64 number: Rocq's primitive [float]. *)
Inductive pyval : Type :=
| PyNone
| PyBool (b : bool)
| PyFloat (f : float)
| PyStr (s : string).

(** The exceptions that can leave the layer: [ValueError] is raised by [call]
    itself, [TypeError] by the base class on an unknown keyword argument and
    [InvalidArgumentError] by TensorFlow on shapes it cannot broadcast. *)
Inductive exn : Type :=
| ValueError (msg : string)
| TypeError (msg : string)
| InvalidArgumentError (msg : string).

Inductive result (A : Type) : Type :=
| Ok (a : A)
| Raise (e : exn).
Arguments Ok {A} a.
Arguments Raise {A} e.

(** [if training:] -- Python truthiness of the mode flag, which is [None]
    (the default), [False] or [True]. *)
Definition truthy (training : option bool) : bool :=
  match training with
  | Some b => b
  | None => false
  end.

(** [f"{n}"] for a length. *)
Definition repr_nat (n : nat) : string :=
  NilEmpty.string_of_uint (Nat.to_uint n).

(** [dict(pairs)]: later pairs overwrite earlier ones. *)
Definition dict (pairs : list (string * pyval)) : gmap string pyval :=
  foldl (fun d kv => <[kv.1 := kv.2]> d) ∅ pairs.

(** [list(d.items())]. *)
Definition items (d : gmap string pyval) : list (string * pyval) :=
  map_to_list d.

(** ** float32 arithmetic *)

(** The kernels that run the arithmetic.  TensorFlow's CPU kernels flush
    subnormals: a subnormal operand is read as zero and a subnormal result is
    written as zero.  Other kernels keep them, as IEEE 754 has it. *)
Class Kernels : Type := {
  flush_denormals : bool;
}.

Module F32.
(** binary32: 24 bits of precision, exponent of the infinities 128. *)
Definition prec : Z := 24.
Definition emax : Z := 128.

(** [0.0] and [1.0], the two values [random_bernoulli] returns. *)
Definition zero : spec_float := S754_zero false.
Definition one : spec_float := S754_finite false 8388608 (-23).

(** A zero of either sign. *)
Definition is_zero (x : spec_float) : bool :=
  match x with
  | S754_zero _ => true
  | _ => false
  end.

(** [x] with a subnormal replaced by the zero of its sign. *)
Definition flush (x : spec_float) : spec_float :=
  match x with
  | S754_finite s m _ =>
      if Z.pos (SpecFloat.digits2_pos m) =? prec then x else S754_zero s
  | _ => x
  end.

(** What a kernel reads of an operand, and writes of a result. *)
Definition ftz `{Kernels} (x : spec_float) : spec_float :=
  if flush_denormals then flush x else x.

Definition add `{Kernels} (x y : spec_float) : spec_float :=
  ftz (SpecFloat.SFadd prec emax (ftz x) (ftz y)).
Definition mul `{Kernels} (x y : spec_float) : spec_float :=
  ftz (SpecFloat.SFmul prec emax (ftz x) (ftz y)).

(** [x <= y] *)
Definition leb `{Kernels} (x y : spec_float) : bool :=
  SpecFloat.SFleb (ftz x) (ftz y).

(** A float32 value proper: the mantissa is normalised and the exponent in
    range.  Every element of a tensor is one. *)
Definition valid (x : spec_float) : Prop := SpecFloat.valid_binary prec emax x = true.

(** Neither an infinity nor NaN. *)
Definition finite (x : spec_float) : bool :=
  match x with
  | S754_zero _ | S754_finite _ _ _ => true
  | S754_infinity _ | S754_nan => false
  end.

(** A Python float becomes a float32 constant when it meets a float32
    tensor: rounded to nearest, ties to even. *)
Definition of_float (x : float) : spec_float :=
  match Prim2SF x with
  | S754_finite s m e => SpecFloat.binary_round prec emax s m e
  | y => y
  end.
End F32.

(** ** Tensors *)

(** A tensor is the buffer of its float32 elements (a rank-1 tensor; for
    tensors of one shape, elementwise arithmetic on the buffers is elementwise
    arithmetic on the tensors).  A rank-0 tensor, such as [b_l], is a
    [spec_float]. *)
Definition tensor : Type := list spec_float.

(** [c * t] for a rank-0 [c]: the scalar is broadcast over [t]. *)
Definition scalar_mul `{Kernels} (c : spec_float) (t : tensor) : tensor :=
  map (F32.mul c) t.

(** [a + b].  Equal shapes add elementwise, a one-element tensor is broadcast
    over the other, and any other pair of shapes is refused. *)
Definition tensor_add `{Kernels} (a b : tensor) : result tensor :=
  if (length a =? length b)%nat then Ok (zip_with F32.add a b)
  else match a, b with
       | [x], _ => Ok (map (F32.add x) b)
       | _, [y] => Ok (map (fun x => F32.add x y) a)
       | _, _ => Raise (InvalidArgumentError "Incompatible shapes")
       end.

(** ** The host framework *)

(** [tf.keras.layers.Layer], as far as the layer uses it: the base
    constructor [super().__init__], which is given the keyword arguments and
    may refuse them, and [super().get_config()]. *)
Class HostLayer : Type := {
  Layer : Type;
  Layer_init : gmap string pyval -> result Layer;
  Layer_get_config : Layer -> gmap string pyval;
}.

(** A uniform sample: a float32 value of [[0, 1)], the range of
    [tf.random.uniform]. *)
Definition in_unit (u : spec_float) : bool :=
  SpecFloat.SFleb F32.zero u && SpecFloat.SFltb u F32.one.

Record unit_sample : Type := {
  value : spec_float;
  value_in_unit : in_unit value = true;
}.

(** [u] as a uniform sample, or [0.0] when [u] is outside the range. *)
Definition unit_sample_of (u : spec_float) : unit_sample :=
  match in_unit u as b return in_unit u = b -> unit_sample with
  | true => fun Hu => {| value := u; value_in_unit := Hu |}
  | false => fun _ => {| value := F32.zero; value_in_unit := eq_refl |}
  end eq_refl.

(** The random backend: [uniform n] is the [n]-th uniform sample the program
    draws, and [drawn] counts the draws made so far. *)
Record random_backend : Type := {
  uniform : nat -> unit_sample;
  drawn : nat;
}.

(** One more draw has been made. *)
Definition advance (r : random_backend) : random_backend :=
  {| uniform := uniform r; drawn := S (drawn r) |}.

(** Whether the [n]-th draw succeeds when it is asked for success probability
    [p].  [random_bernoulli] compares the uniform sample with [p]:
    [tf.where(tf.random.uniform(shape) <= p, ones, zeros)]. *)
Definition outcome `{Kernels} (r : random_backend) (n : nat) (p : float) : bool :=
  F32.leb (value (uniform r n)) (F32.of_float p).

Section Layer.
Context {K : Kernels} {H : HostLayer}.

(** ** The layer object *)

Record StochasticDepth : Type := {
  survival_probability : float;
  base : Layer;
}.

(** What a method can read and write: the object it is called on and the
    random backend. *)
Record world : Type := {
  self : StochasticDepth;
  rand : random_backend;
}.

(** A method body: it runs in a world, returns or raises, and leaves a
    world. *)
Definition M (A : Type) : Type := world -> result A * world.

#[local] Instance M_ret : MRet M := fun A a w => (Ok a, w).
#[local] Instance M_bind : MBind M := fun A B k m w =>
  match m w with
  | (Ok a, w') => k a w'
  | (Raise e, w') => (Raise e, w')
  end.

Definition raise {A : Type} (e : exn) : M A := fun w => (Raise e, w).

(** A TensorFlow operation that may fail. *)
Definition lift {A : Type} (r : result A) : M A := fun w => (r, w).

(** [self.attr] *)
Definition getattr {A : Type} (attr : StochasticDepth -> A) : M A :=
  fun w => (Ok (attr (self w)), w).

(** [tf.keras.backend.random_bernoulli([], p=p)]: one draw; the rank-0 result
    is [1.0] on success and [0.0] on failure. *)
Definition random_bernoulli (p : float) : M spec_float :=
  fun w =>
    let r := rand w in
    (Ok (if outcome r (drawn r) p then F32.one else F32.zero),
     {| self := self w; rand := advance r |}).

(** [shortcut, residual = x].  Python refuses any other number of values;
    after the check of [len(x)] that cannot happen. *)
Definition unpack2 (x : list tensor) : M (tensor * tensor) :=
  match x with
  | [shortcut; residual] => mret (shortcut, residual)
  | [] | [_] =>
      raise (ValueError ("not enough values to unpack (expected 2, got "
                         +:+ repr_nat (length x) +:+ ")"))
  | _ => raise (ValueError "too many values to unpack (expected 2)")
  end.

(** ** The methods *)

(** [__init__(self, survival_probability=0.5, **kwargs)] *)
Definition __init__ (survival_probability : option float)
    (kwargs : gmap string pyval) : result StochasticDepth :=
  match Layer_init kwargs with
  | Ok b =>
      Ok {| survival_probability := default 0.5%float survival_probability;
            base := b |}
  | Raise e => Raise e
  end.

(** [call(self, x, training=None)] *)
Definition call (x : list tensor) (training : option bool) : M tensor :=
  if negb (length x =? 2)%nat then
    raise (ValueError ("Input must be a list of length 2. "
                       +:+ "Got input with length=" +:+ repr_nat (length x)
                       +:+ "."))
  else
    '(shortcut, residual) ← unpack2 x;
    p ← getattr survival_probability;
    b_l ← random_bernoulli p;
    if truthy training then
      lift (tensor_add shortcut (scalar_mul b_l residual))
    else
      p ← getattr survival_probability;
      lift (tensor_add shortcut (scalar_mul (F32.of_float p) residual)).

(** [get_config(self)] *)
Definition get_config : M (gmap string pyval) :=
  p ← getattr survival_probability;
  let config : gmap string pyval := {[ "survival_probability" := PyFloat p ]} in
  base_config ← getattr (fun l => Layer_get_config (base l));
  mret (dict (items base_config ++ items config)).

(** [cls] applied to the configuration as keyword arguments, the way the
    framework rebuilds a layer from its configuration: the key
    [survival_probability] binds the parameter of that name and the other keys
    go to [**kwargs].  A value that is not a float is outside this model. *)
Definition from_config (config : gmap string pyval) : option (result StochasticDepth) :=
  match config !! "survival_probability" with
  | None => Some (__init__ None config)
  | Some (PyFloat p) => Some (__init__ (Some p) (delete "survival_probability" config))
  | Some _ => None
  end.

(** ** Names for what a call does *)

(** The world a call leaves when it has drawn its sample. *)
Definition after_draw (w : world) : world :=
  {| self := self w; rand := advance (rand w) |}.

(** The sample a call draws in [w]. *)
Definition sample (w : world) : spec_float :=
  if outcome (rand w) (drawn (rand w)) (survival_probability (self w))
  then F32.one else F32.zero.

(** The message of the arity error. *)
Definition arity_message (n : nat) : string :=
  "Input must be a list of length 2. Got input with length=" +:+ repr_nat n +:+ ".".

(** ** Using a layer *)

(** What a program does with a layer once it is built. *)
Inductive invocation : Type :=
| Call (x : list tensor) (training : option bool)
| GetConfig.

(** One invocation; the caller drops the value, or catches the exception. *)
Definition invoke (i : invocation) (w : world) : world :=
  match i with
  | Call x training => snd (call x training w)
  | GetConfig => snd (get_config w)
  end.

(** A sequence of invocations, first to last. *)
Definition run (program : list invocation) (w : world) : world :=
  foldl (fun w i => invoke i w) w program.

End Layer.

(** [sub] occurs in [s]. *)
Definition contains (s sub : string) : Prop :=
  exists before after, s = before +:+ sub +:+ after.

(** ** What float32 arithmetic makes of a dropped branch *)

(** [z] stands where the shortcut holds [x] and the residual [y] once the
    residual has been multiplied by [0.0].  A finite [y] leaves [x] as the
    kernel reads it: [x] itself, or zero for a subnormal [x] where subnormals
    are flushed; a zero may come back as [+0.0].  An infinite or NaN [y]
    leaves NaN. *)
Definition dropped_value `{Kernels} (x y z : spec_float) : Prop :=
  if F32.finite y
  then z = F32.ftz x \/ (F32.is_zero (F32.ftz x) = true /\ z = S754_zero false)
  else z = S754_nan.

(** ** A host and a sampler to run the layer on *)

Module Example.

(** A base class that knows three keyword arguments and reports what it was
    given. *)
Definition known (kwargs : gmap string pyval) : bool :=
  forallb (fun k => bool_decide (k ∈ ["name"; "trainable"; "dtype"]))
          (map fst (map_to_list kwargs)).

#[export] Instance host : HostLayer := {|
  Layer := gmap string pyval;
  Layer_init kwargs :=
    if known kwargs then Ok kwargs
    else Raise (TypeError "Keyword argument not understood");
  Layer_get_config b := b;
|}.

(** TensorFlow's CPU kernels. *)
#[export] Instance cpu : Kernels := {| flush_denormals := true |}.

(** Kernels that keep subnormals. *)
Definition ieee : Kernels := {| flush_denormals := false |}.

(** A random backend whose every uniform sample is [u]. *)
Definition threshold (u : float) : random_backend :=
  {| uniform := fun _ => unit_sample_of (F32.of_float u); drawn := 0 |}.

Definition named : gmap string pyval := {[ "name" := PyStr "stochastic_depth" ]}.

Definition layer (p : float) : StochasticDepth :=
  {| survival_probability := p; base := named |}.

Definition ones : tensor := [F32.of_float 1; F32.of_float 1; F32.of_float 1].
Definition twos : tensor := [F32.of_float 2; F32.of_float 2; F32.of_float 2].
Definition threes : tensor := [F32.of_float 3; F32.of_float 3; F32.of_float 3].

(** A residual branch that has overflowed. *)
Definition one : tensor := [F32.of_float 1].
Definition overflowed : tensor := [S754_infinity false].

(** [2^-127], a subnormal, and [2^-126], the smallest normal number. *)
Definition subnormal : tensor := [S754_finite false 4194304 (-149)].
Definition smallest : tensor := [S754_finite false 8388608 (-149)].
Definition minus_smallest : tensor := [S754_finite true 8388608 (-149)].

(** A program that uses a layer in every way, the failing one included. *)
Definition session : list invocation :=
  [Call [ones; twos] (Some true); Call [ones] None; GetConfig;
   Call [ones; twos; threes] (Some true); Call [ones; twos] None].

End Example.

(** ** Counting draws *)

(** The draws one invocation makes: a [call] that gets past the arity check
    reaches line 68 once; nothing else draws. *)
Definition draws_of `{HostLayer} (i : invocation) : nat :=
  match i with
  | Call x _ => if (length x =? 2)%nat then 1%nat else 0%nat
  | GetConfig => 0%nat
  end.

(** The draws of a program. *)
Definition draws `{HostLayer} (program : list invocation) : nat :=
  foldr (fun i n => (draws_of i + n)%nat) 0%nat program.

(** * Facts *)

(** ** float32 arithmetic *)

Section Float32.
Context {K : Kernels}.

(** A valid finite float32 has a canonical mantissa and an exponent of at most
    [emax - prec]. *)
Lemma valid_finite_inv s m e :
  F32.valid (S754_finite s m e) ->
  Z.max (Z.pos (SpecFloat.digits2_pos m) + e - 24) (-149) = e /\ e <= 104.
Proof.
  unfold F32.valid, SpecFloat.valid_binary, SpecFloat.bounded,
    SpecFloat.canonical_mantissa, SpecFloat.fexp, SpecFloat.emin,
    F32.prec, F32.emax.
  intros Hv. apply andb_prop in Hv as [Hc Hb].
  apply Z.eqb_eq in Hc. apply Z.leb_le in Hb. simpl in Hb.
  split; [exact Hc | exact Hb].
Qed.

(** Shifting [2^23 * m] right by 23 bits gives [m] back, exactly. *)
Lemma shr_exact_23 (m : positive) :
  SpecFloat.iter_pos SpecFloat.shr_1 23
    {| SpecFloat.shr_m := Z.pos (8388608 * m);
       SpecFloat.shr_r := false; SpecFloat.shr_s := false |}
  = {| SpecFloat.shr_m := Z.pos m;
       SpecFloat.shr_r := false; SpecFloat.shr_s := false |}.
Proof. reflexivity. Qed.

Lemma digits2_shift_23 (m : positive) :
  Z.pos (SpecFloat.digits2_pos (8388608 * m))
  = Z.pos (SpecFloat.digits2_pos m) + 23.
Proof. cbv [Pos.mul]. cbn [SpecFloat.digits2_pos]. lia. Qed.

(** The IEEE product [1.0 * y] is [y]: the product of the mantissas is shifted
    back without loss, and nothing is left to round. *)
Lemma ieee_mul_one y :
  F32.valid y -> SpecFloat.SFmul F32.prec F32.emax F32.one y = y.
Proof.
  destruct y as [s | s | | s m e]; try reflexivity.
  intros Hv. apply valid_finite_inv in Hv as [Hc Hb].
  unfold F32.one, SpecFloat.SFmul, SpecFloat.binary_round_aux.
  unfold SpecFloat.shr_fexp at 1.
  unfold SpecFloat.Zdigits2 at 1. rewrite digits2_shift_23.
  unfold SpecFloat.fexp at 1, SpecFloat.emin, F32.prec, F32.emax.
  replace (Z.max (Z.pos (SpecFloat.digits2_pos m) + 23 + (-23 + e) - 24)
                 (3 - 128 - 24) - (-23 + e))
    with 23 by lia.
  unfold SpecFloat.shr_record_of_loc, SpecFloat.shr.
  rewrite shr_exact_23.
  cbn [SpecFloat.shr_m SpecFloat.loc_of_shr_record SpecFloat.round_nearest_even].
  unfold SpecFloat.shr_fexp, SpecFloat.Zdigits2, SpecFloat.fexp, SpecFloat.emin.
  replace (Z.max (Z.pos (SpecFloat.digits2_pos m) + (-23 + e + 23) - 24)
                 (3 - 128 - 24) - (-23 + e + 23))
    with 0 by lia.
  cbn [SpecFloat.shr SpecFloat.shr_record_of_loc SpecFloat.shr_m xorb].
  replace (-23 + e + 23) with e by lia.
  replace (e <=? 128 - 24) with true by (symmetry; apply Z.leb_le; lia).
  reflexivity.
Qed.

(** What a kernel reads is a float32 value, and reading it again changes
    nothing. *)
Lemma ftz_valid x : F32.valid x -> F32.valid (F32.ftz x).
Proof.
  unfold F32.ftz, F32.flush. intros Hx.
  destruct flush_denormals; [| exact Hx].
  destruct x as [s | s | | s m e]; try exact Hx.
  destruct (Z.pos (SpecFloat.digits2_pos m) =? F32.prec); [exact Hx | reflexivity].
Qed.

Lemma ftz_idem x : F32.ftz (F32.ftz x) = F32.ftz x.
Proof.
  unfold F32.ftz, F32.flush.
  destruct flush_denormals; [| reflexivity].
  destruct x as [s | s | | s m e]; try reflexivity.
  destruct (Z.pos (SpecFloat.digits2_pos m) =? F32.prec) eqn:Hd;
    [rewrite Hd |]; reflexivity.
Qed.

Lemma ftz_one : F32.ftz F32.one = F32.one.
Proof. unfold F32.ftz. destruct flush_denormals; reflexivity. Qed.

Lemma ftz_zero s : F32.ftz (S754_zero s) = S754_zero s.
Proof. unfold F32.ftz. destruct flush_denormals; reflexivity. Qed.

Lemma ftz_nan : F32.ftz S754_nan = S754_nan.
Proof. unfold F32.ftz. destruct flush_denormals; reflexivity. Qed.

(** [1.0 * y] is [y] as the kernel reads it. *)
Lemma mul_one y : F32.valid y -> F32.mul F32.one y = F32.ftz y.
Proof.
  intros Hy. unfold F32.mul.
  rewrite ftz_one, ieee_mul_one by (apply ftz_valid; exact Hy).
  apply ftz_idem.
Qed.

(** Adding [1.0 * y] is adding [y]. *)
Lemma add_mul_one x y :
  F32.valid y -> F32.add x (F32.mul F32.one y) = F32.add x y.
Proof.
  intros Hy. rewrite mul_one by exact Hy.
  unfold F32.add. rewrite ftz_idem. reflexivity.
Qed.

(** [0.0 * y] is a zero with the sign of [y] when [y] is finite, and NaN
    otherwise. *)
Lemma mul_zero_cases y :
  F32.mul F32.zero y
  = match y with
    | S754_zero s | S754_finite s _ _ => S754_zero s
    | S754_infinity _ | S754_nan => S754_nan
    end.
Proof.
  unfold F32.mul, F32.ftz, F32.flush, F32.zero.
  destruct flush_denormals, y as [[] | [] | | [] m e]; try reflexivity;
    destruct (Z.pos (SpecFloat.digits2_pos m) =? F32.prec); reflexivity.
Qed.

(** [x + 0.0 * y], elementwise. *)
Lemma add_mul_zero_dropped x y :
  dropped_value x y (F32.add x (F32.mul F32.zero y)).
Proof.
  unfold dropped_value. rewrite mul_zero_cases. unfold F32.add.
  pose proof (ftz_idem x) as Hidem.
  destruct y as [sy | sy | | sy my ey]; cbn [F32.finite];
    rewrite ?ftz_zero, ?ftz_nan.
  - destruct (F32.ftz x) as [[] | [] | | sx mx ex], sy; cbn [SpecFloat.SFadd];
      rewrite ?ftz_zero; auto.
  - destruct (F32.ftz x) as [[] | [] | | sx mx ex]; cbn [SpecFloat.SFadd];
      apply ftz_nan.
  - destruct (F32.ftz x) as [[] | [] | | sx mx ex]; cbn [SpecFloat.SFadd];
      apply ftz_nan.
  - destruct (F32.ftz x) as [[] | [] | | sx mx ex], sy; cbn [SpecFloat.SFadd];
      rewrite ?ftz_zero; auto.
Qed.

(** ** The sampler at the ends of the range *)

(** A uniform sample is below [1.0]: the draw for [p = 1.0] succeeds. *)
Lemma outcome_at_one r n : outcome r n 1%float = true.
Proof.
  unfold outcome, F32.leb. change (F32.of_float 1) with F32.one.
  rewrite ftz_one.
  destruct (uniform r n) as [u Hu]. cbn [value].
  unfold in_unit in Hu. apply andb_prop in Hu as [_ Hlt].
  assert (Hle : SpecFloat.SFleb u F32.one = true).
  { unfold SpecFloat.SFltb in Hlt. unfold SpecFloat.SFleb.
    destruct (SpecFloat.SFcompare u F32.one) as [[] |]; congruence. }
  unfold F32.ftz, F32.flush. destruct flush_denormals; [| exact Hle].
  destruct u as [s | s | | s m e]; try exact Hle.
  destruct (Z.pos (SpecFloat.digits2_pos m) =? F32.prec); [exact Hle |].
  destruct s; reflexivity.
Qed.

(** The draw for [p = 0.0] succeeds exactly when the uniform sample, as the
    kernel reads it, is zero. *)
Lemma outcome_at_zero r n :
  outcome r n 0%float = F32.is_zero (F32.ftz (value (uniform r n))).
Proof.
  unfold outcome, F32.leb. change (F32.of_float 0) with F32.zero.
  unfold F32.zero. rewrite ftz_zero.
  destruct (uniform r n) as [u Hu]. cbn [value].
  unfold in_unit in Hu. apply andb_prop in Hu as [Hge _].
  unfold F32.ftz, F32.flush.
  destruct flush_denormals, u as [[] | [] | | [] m e];
    try discriminate; try reflexivity;
    destruct (Z.pos (SpecFloat.digits2_pos m) =? F32.prec); reflexivity.
Qed.

End Float32.

(** ** Tensors *)

Section Tensors.
Context {K : Kernels}.

Lemma length_scalar_mul c (t : tensor) : length (scalar_mul c t) = length t.
Proof. unfold scalar_mul. apply length_map. Qed.

(** Tensors of one shape add elementwise. *)
Lemma tensor_add_same_shape (a b : tensor) :
  length a = length b -> tensor_add a b = Ok (zip_with F32.add a b).
Proof.
  intros Hlen. unfold tensor_add.
  rewrite Hlen, Nat.eqb_refl. reflexivity.
Qed.

(** Adding a scaled tensor, element by element. *)
Lemma zip_add_scalar_mul c (a b : tensor) :
  zip_with F32.add a (scalar_mul c b)
  = zip_with (fun x y => F32.add x (F32.mul c y)) a b.
Proof.
  revert b. induction a as [| x a IH]; intros [| y b]; cbn; try reflexivity.
  f_equal. apply IH.
Qed.

(** Adding [1.0 * b] is adding [b]. *)
Lemma zip_add_scalar_mul_one (a b : tensor) :
  Forall F32.valid b ->
  zip_with F32.add a (scalar_mul F32.one b) = zip_with F32.add a b.
Proof.
  intros Hvalid. rewrite zip_add_scalar_mul.
  revert a. induction Hvalid as [| y b Hy _ IH]; intros [| x a];
    cbn [zip_with]; try reflexivity.
  rewrite add_mul_one by exact Hy. f_equal. apply IH.
Qed.

(** What is left of [a + 0.0 * b]. *)
Lemma zip_add_zero_dropped (a b : tensor) :
  length a = length b ->
  Forall3 dropped_value a b (zip_with F32.add a (scalar_mul F32.zero b)).
Proof.
  intros Hlen. rewrite zip_add_scalar_mul.
  revert b Hlen. induction a as [| x a IH]; intros [| y b] Hlen;
    cbn in Hlen; try discriminate; cbn [zip_with].
  - constructor.
  - constructor; [apply add_mul_zero_dropped | apply IH; lia].
Qed.

End Tensors.

(** ** The methods, one path at a time *)

Section Paths.
Context {K : Kernels} {H : HostLayer}.

(** Lines 60-64: any length but 2 raises, and the world is as it was. *)
Lemma call_wrong_arity x training w :
  length x <> 2%nat ->
  call x training w = (Raise (ValueError (arity_message (length x))), w).
Proof.
  intros Hlen. unfold call.
  destruct (Nat.eqb_spec (length x) 2) as [Heq | _]; [contradiction |].
  reflexivity.
Qed.

(** Lines 66-73: a pair is unpacked, the sample is drawn, and only then is
    the mode looked at. *)
Lemma call_pair shortcut residual training w :
  call [shortcut; residual] training w
  = (if truthy training
     then tensor_add shortcut (scalar_mul (sample w) residual)
     else tensor_add shortcut
            (scalar_mul (F32.of_float (survival_probability (self w))) residual),
     after_draw w).
Proof.
  unfold call, sample, after_draw. cbn.
  destruct (truthy training); reflexivity.
Qed.

Lemma length_2_inv (x : list tensor) :
  length x = 2%nat -> exists a b, x = [a; b].
Proof.
  destruct x as [| a [| b [| c x]]]; cbn; intros Hlen; try discriminate.
  exists a, b. reflexivity.
Qed.

(** [get_config] reads the object and changes nothing. *)
Lemma get_config_pure w :
  get_config w
  = (Ok (dict (items (Layer_get_config (base (self w)))
               ++ items {[ "survival_probability" := PyFloat (survival_probability (self w)) ]})),
     w).
Proof. reflexivity. Qed.

(** No invocation writes to the object. *)
Lemma invoke_self i w : self (invoke i w) = self w.
Proof.
  destruct i as [x training |]; cbn.
  - destruct (Nat.eq_dec (length x) 2%nat) as [Hlen | Hlen].
    + apply length_2_inv in Hlen as (a & b & ->). rewrite call_pair. reflexivity.
    + rewrite call_wrong_arity by exact Hlen. reflexivity.
  - reflexivity.
Qed.

Lemma run_self program w : self (run program w) = self w.
Proof.
  revert w. induction program as [| i program IH]; intros w; cbn.
  - reflexivity.
  - unfold run in IH. rewrite IH. apply invoke_self.
Qed.

End Paths.

(** ** Dictionaries *)

Section Dictionaries.

Lemma dict_snoc pairs k v : dict (pairs ++ [(k, v)]) = <[k := v]> (dict pairs).
Proof. unfold dict. rewrite foldl_snoc. reflexivity. Qed.

(** [dict] builds the map in which the last pair of a key wins. *)
Lemma dict_list_to_map pairs : dict pairs = list_to_map (reverse pairs).
Proof.
  induction pairs as [| [k v] pairs IH] using rev_ind.
  - reflexivity.
  - rewrite dict_snoc, reverse_snoc, IH. reflexivity.
Qed.

(** [dict(list(d.items()))] is [d]. *)
Lemma dict_items d : dict (items d) = d.
Proof.
  unfold items. rewrite dict_list_to_map.
  rewrite <- (list_to_map_to_list d) at 2.
  apply list_to_map_proper.
  - rewrite fmap_reverse, reverse_Permutation. apply NoDup_fst_map_to_list.
  - apply reverse_Permutation.
Qed.

(** The merge of [get_config]: the layer's own entry is written over the base
    configuration. *)
Lemma dict_merge_own base_config k v :
  dict (items base_config ++ items {[ k := v ]}) = <[k := v]> base_config.
Proof.
  unfold items at 2. rewrite map_to_list_singleton, dict_snoc, dict_items.
  reflexivity.
Qed.

End Dictionaries.

(** * The layer's contract *)

Section Contract.
Context {K : Kernels} {H : HostLayer}.

(** ** Inference *)

(** C1.  With [training=False], a call on two tensors [a], [b] of one shape
    returns exactly [a + p * b], element by element, where [p] is the layer's
    [survival_probability] as a float32 constant.  The random backend [r] does
    not occur in the tensor returned. *)
Theorem call_inference_exact (l : StochasticDepth) (a b : tensor)
    (r : random_backend) :
  length a = length b ->
  fst (call [a; b] (Some false) {| self := l; rand := r |})
  = Ok (zip_with
          (fun x y => F32.add x (F32.mul (F32.of_float (survival_probability l)) y))
          a b).
Proof.
  intros Hlen. rewrite call_pair. cbn [fst truthy self].
  rewrite tensor_add_same_shape by (rewrite length_scalar_mul; exact Hlen).
  rewrite zip_add_scalar_mul. reflexivity.
Qed.

(** C4.  A call with [training=None] is the call with [training=False]: same
    value or exception, same world afterwards, for every input.  More
    generally every falsy mode takes the inference branch, which on two
    tensors of one shape returns [a + p * b]. *)
Theorem call_training_absent_is_inference (x : list tensor)
    (training : option bool) (w : world) :
  call x None w = call x (Some false) w
  /\ (truthy training = false -> call x training w = call x (Some false) w)
  /\ (truthy training = false ->
      forall a b, x = [a; b] -> length a = length b ->
      fst (call x training w)
      = Ok (zip_with
              (fun u v => F32.add u (F32.mul (F32.of_float (survival_probability (self w))) v))
              a b)).
Proof.
  split; [reflexivity |]. split.
  - destruct training as [[] |]; cbn; [discriminate | reflexivity | reflexivity].
  - intros Hfalsy a b -> Hlen. rewrite call_pair, Hfalsy. cbn [fst].
    rewrite tensor_add_same_shape by (rewrite length_scalar_mul; exact Hlen).
    rewrite zip_add_scalar_mul. reflexivity.
Qed.

(** ** Training *)

(** C2, as the code has it.  A training call on two tensors of one shape draws
    one sample for the whole batch and returns [a + 1.0 * b] when the draw
    succeeds and [a + 0.0 * b] when it fails.  The first is [a + b].  The
    second holds, at every position where the residual is finite, the shortcut
    as the kernel reads it -- the shortcut itself, or zero for a subnormal
    shortcut where subnormals are flushed; a zero may come back as [+0.0] --
    and NaN wherever the residual is infinite or NaN: multiplying by zero does
    not erase those. *)
Theorem call_training_outcomes (l : StochasticDepth) (a b : tensor)
    (r : random_backend) :
  length a = length b ->
  Forall F32.valid b ->
  exists t,
    call [a; b] (Some true) {| self := l; rand := r |}
    = (Ok t, {| self := l; rand := advance r |})
    /\ if outcome r (drawn r) (survival_probability l)
       then Ok t = tensor_add a b
       else Forall3 dropped_value a b t.
Proof.
  intros Hlen Hvalid. rewrite call_pair.
  unfold sample, after_draw. cbn [truthy self rand].
  rewrite tensor_add_same_shape by (rewrite length_scalar_mul; exact Hlen).
  eexists. split; [reflexivity |].
  destruct (outcome r (drawn r) (survival_probability l)).
  - rewrite zip_add_scalar_mul_one by exact Hvalid.
    rewrite tensor_add_same_shape by exact Hlen. reflexivity.
  - apply zip_add_zero_dropped. exact Hlen.
Qed.

(** C5, as the code has it.  The sampler compares a uniform sample [u] of
    [[0, 1)] with [p], and succeeds when [u <= p].  With
    [survival_probability = 1.0] it always succeeds: every training call on
    tensors of one shape returns [a + b], whatever the random backend holds.
    With [survival_probability = 0.0] it still succeeds when [u] is zero, and
    the call then returns [a + b]; otherwise the call returns [a + 0.0 * b],
    which is the shortcut as the kernel reads it where the residual is
    finite and NaN where the residual is infinite or NaN. *)
Theorem call_training_endpoints (l : StochasticDepth) (a b : tensor)
    (r : random_backend) :
  length a = length b ->
  Forall F32.valid b ->
  (survival_probability l = 1%float ->
   call [a; b] (Some true) {| self := l; rand := r |}
   = (tensor_add a b, {| self := l; rand := advance r |}))
  /\ (survival_probability l = 0%float ->
      exists t,
        call [a; b] (Some true) {| self := l; rand := r |}
        = (Ok t, {| self := l; rand := advance r |})
        /\ if F32.is_zero (F32.ftz (value (uniform r (drawn r))))
           then Ok t = tensor_add a b
           else Forall3 dropped_value a b t).
Proof.
  intros Hlen Hvalid. split.
  - intros Hp. rewrite call_pair.
    unfold sample, after_draw. cbn [truthy self rand].
    rewrite Hp, outcome_at_one.
    rewrite !tensor_add_same_shape
      by (rewrite ?length_scalar_mul; exact Hlen).
    rewrite zip_add_scalar_mul_one by exact Hvalid. reflexivity.
  - intros Hp. rewrite call_pair.
    unfold sample, after_draw. cbn [truthy self rand].
    rewrite Hp, outcome_at_zero.
    rewrite tensor_add_same_shape by (rewrite length_scalar_mul; exact Hlen).
    eexists. split; [reflexivity |].
    destruct (F32.is_zero (F32.ftz (value (uniform r (drawn r))))).
    + rewrite zip_add_scalar_mul_one by exact Hvalid.
      rewrite tensor_add_same_shape by exact Hlen. reflexivity.
    + apply zip_add_zero_dropped. exact Hlen.
Qed.

(** ** The arity check *)

(** C3.  A call raises the arity [ValueError] exactly when its input does not
    have two elements.  The message is then
    ["Input must be a list of length 2. Got input with length=N."] with [N]
    the length received, in decimal.  An input of two elements never raises
    it, and returns a tensor when the two have one shape. *)
Theorem call_arity_check (x : list tensor) (training : option bool) (w : world) :
  ((exists msg w', call x training w = (Raise (ValueError msg), w'))
   <-> length x <> 2%nat)
  /\ (length x <> 2%nat ->
      fst (call x training w) = Raise (ValueError (arity_message (length x)))
      /\ contains (arity_message (length x)) ("length=" +:+ repr_nat (length x)))
  /\ (forall a b, x = [a; b] -> length a = length b ->
      exists t, fst (call x training w) = Ok t).
Proof.
  split; [split |].
  - intros (msg & w' & Hcall) Hlen.
    apply length_2_inv in Hlen as (a & b & ->).
    rewrite call_pair in Hcall.
    destruct (truthy training);
      [destruct (tensor_add a (scalar_mul (sample w) b)) as [t | e] eqn:Hadd
      |destruct (tensor_add a (scalar_mul (F32.of_float (survival_probability (self w))) b))
         as [t | e] eqn:Hadd];
      try discriminate;
      unfold tensor_add in Hadd;
      destruct (length a =? length (scalar_mul _ b))%nat; try discriminate;
      destruct a as [| ? [| ? ?]], (scalar_mul _ b) as [| ? [| ? ?]];
      try discriminate;
      injection Hadd as <-; discriminate.
  - intros Hlen. eexists _, _. apply call_wrong_arity. exact Hlen.
  - split.
    + intros Hlen. rewrite call_wrong_arity by exact Hlen. split; [reflexivity |].
      exists "Input must be a list of length 2. Got input with ", ".".
      reflexivity.
    + intros a b -> Hlen. rewrite call_pair. cbn [fst].
      destruct (truthy training);
        rewrite tensor_add_same_shape by (rewrite length_scalar_mul; exact Hlen);
        eexists; reflexivity.
Qed.

(** C10.  When the input does not have two elements, the call raises before
    line 68 is reached: the world it leaves is the world it found, so no
    sample has been drawn and the random backend is as it was. *)
Theorem arity_error_precedes_draw (x : list tensor) (training : option bool)
    (w : world) :
  length x <> 2%nat ->
  call x training w = (Raise (ValueError (arity_message (length x))), w)
  /\ rand (snd (call x training w)) = rand w
  /\ drawn (rand (snd (call x training w))) = drawn (rand w).
Proof.
  intros Hlen. rewrite call_wrong_arity by exact Hlen.
  repeat split.
Qed.

(** ** Effects *)

(** C6, as the code has it.  [b_l] is drawn on line 68, before the mode is
    looked at.  A call on a two-element input therefore makes exactly one
    draw in every mode, training or inference, and changes nothing else; in
    inference the outcome of that draw has no part in the result.  A call that
    raises the arity error makes no draw. *)
Theorem call_draws_in_every_mode (x : list tensor) (training : option bool)
    (w : world) :
  (length x = 2%nat ->
   snd (call x training w) = {| self := self w; rand := advance (rand w) |})
  /\ (length x <> 2%nat -> snd (call x training w) = w)
  /\ (truthy training = false ->
      forall r', fst (call x training {| self := self w; rand := r' |})
                 = fst (call x training w)).
Proof.
  repeat split.
  - intros Hlen. apply length_2_inv in Hlen as (a & b & ->).
    rewrite call_pair. reflexivity.
  - intros Hlen. rewrite call_wrong_arity by exact Hlen. reflexivity.
  - intros Hfalsy r'.
    destruct (Nat.eq_dec (length x) 2%nat) as [Hlen | Hlen].
    + apply length_2_inv in Hlen as (a & b & ->).
      rewrite !call_pair, Hfalsy. reflexivity.
    + rewrite !call_wrong_arity by exact Hlen. reflexivity.
Qed.

(** C8.  Whatever sequence of [call]s and [get_config]s follows the
    construction -- in any mode, on any input, the ones that raise
    included -- the layer's [survival_probability] is still the value given to
    [__init__]. *)
Theorem survival_probability_is_kept (p : float) (kwargs : gmap string pyval)
    (l : StochasticDepth) (r : random_backend) (program : list invocation) :
  __init__ (Some p) kwargs = Ok l ->
  survival_probability (self (run program {| self := l; rand := r |})) = p.
Proof.
  intros Hinit. rewrite run_self. cbn [self].
  unfold __init__ in Hinit.
  destruct (Layer_init kwargs) as [b | e]; [| discriminate].
  injection Hinit as <-. reflexivity.
Qed.

(** ** Construction and configuration *)

(** C9.  [__init__] stores the survival probability it is given as it is,
    whatever float that is: nothing is checked, clamped or rounded, so values
    outside [0, 1] are kept too.  Without the argument the layer gets [0.5].
    Construction fails only when the base class refuses [kwargs], which does
    not depend on the probability. *)
Theorem init_stores_probability (p : float) (kwargs : gmap string pyval)
    (b : Layer) :
  Layer_init kwargs = Ok b ->
  __init__ (Some p) kwargs = Ok {| survival_probability := p; base := b |}
  /\ __init__ None kwargs = Ok {| survival_probability := 0.5%float; base := b |}.
Proof.
  intros Hbase. unfold __init__. rewrite Hbase. split; reflexivity.
Qed.

(** C7.  [get_config] returns the base configuration with the key
    ["survival_probability"] bound to the layer's value, and changes nothing.
    When the base class accepts its part of that mapping, building a layer
    from the mapping succeeds, and the layer built has the survival
    probability of the original. *)
Theorem get_config_roundtrip (w : world) (b' : Layer) :
  Layer_init (delete "survival_probability" (Layer_get_config (base (self w))))
  = Ok b' ->
  exists config,
    get_config w = (Ok config, w)
    /\ config !! "survival_probability"
       = Some (PyFloat (survival_probability (self w)))
    /\ (forall k, k <> "survival_probability" ->
        config !! k = Layer_get_config (base (self w)) !! k)
    /\ from_config config
       = Some (Ok {| survival_probability := survival_probability (self w);
                     base := b' |}).
Proof.
  intros Hbase.
  eexists. split; [apply get_config_pure |].
  rewrite dict_merge_own.
  assert (Hkey : (<["survival_probability" := PyFloat (survival_probability (self w))]>
                    (Layer_get_config (base (self w))) : gmap string pyval)
                 !! "survival_probability"
                 = Some (PyFloat (survival_probability (self w))))
    by apply lookup_insert_eq.
  split; [exact Hkey |]. split.
  - intros k Hk. apply lookup_insert_ne. congruence.
  - unfold from_config. rewrite Hkey.
    unfold __init__. rewrite delete_insert_eq, Hbase. reflexivity.
Qed.

End Contract.

(** * The contract at work *)

Section Examples.
Import Example.

(** The example of the documentation: [a = [1, 1, 1]], [b = [2, 2, 2]] and
    [p = 0.5] give [[2, 2, 2]] at test time. *)
Example inference_ones_twos :
  fst (call [ones; twos] None {| self := layer 0.5; rand := threshold 0.75 |})
  = Ok twos.
Proof. reflexivity. Qed.

Example training_kept :
  fst (call [ones; twos] (Some true) {| self := layer 0.5; rand := threshold 0.25 |})
  = Ok threes.
Proof. reflexivity. Qed.

Example training_dropped :
  fst (call [ones; twos] (Some true) {| self := layer 0.5; rand := threshold 0.75 |})
  = Ok ones.
Proof. reflexivity. Qed.

Example arity_message_1 :
  fst (call [ones] None {| self := layer 0.5; rand := threshold 0.75 |})
  = Raise (ValueError "Input must be a list of length 2. Got input with length=1.").
Proof. reflexivity. Qed.

Example arity_message_3 :
  fst (call [ones; twos; threes] (Some true)
         {| self := layer 0.5; rand := threshold 0.75 |})
  = Raise (ValueError "Input must be a list of length 2. Got input with length=3.").
Proof. reflexivity. Qed.

(** Shapes that TensorFlow cannot broadcast are refused by the addition, after
    the draw. *)
Example incompatible_shapes :
  call [ones; [F32.of_float 2; F32.of_float 2]] None
       {| self := layer 0.5; rand := threshold 0.75 |}
  = (Raise (InvalidArgumentError "Incompatible shapes"),
     {| self := layer 0.5; rand := advance (threshold 0.75) |}).
Proof. reflexivity. Qed.

(** A subnormal shortcut does not survive a dropped branch on the CPU
    kernels; it does where subnormals are kept. *)
Example training_dropped_subnormal :
  fst (call [subnormal; [F32.of_float 2]] (Some true)
         {| self := layer 0.5; rand := threshold 0.75 |})
  = Ok [S754_zero false]
  /\ fst (call (K := ieee) [subnormal; [F32.of_float 2]] (Some true)
            {| self := layer 0.5; rand := threshold 0.75 |})
     = Ok subnormal.
Proof. split; reflexivity. Qed.

(** A product that underflows is flushed before it is added:
    [2^-126 + 0.5 * -2^-126] is [2^-126] on the CPU kernels. *)
Example inference_flushes_product :
  fst (call [smallest; minus_smallest] None
         {| self := layer 0.5; rand := threshold 0.75 |})
  = Ok smallest
  /\ fst (call (K := ieee) [smallest; minus_smallest] None
            {| self := layer 0.5; rand := threshold 0.75 |})
     = Ok subnormal.
Proof. split; reflexivity. Qed.

(** [1.0 * 2^-127] is [0.0] on the CPU kernels, and so is [2^-127] when it is
    added. *)
Example subnormal_times_one :
  F32.mul F32.one (S754_finite false 4194304 (-149)) = S754_zero false
  /\ fst (call [subnormal; subnormal] None
            {| self := layer 1; rand := threshold 0.75 |})
     = Ok [S754_zero false]
  /\ tensor_add subnormal subnormal = Ok [S754_zero false].
Proof. repeat split; reflexivity. Qed.

(** The draw for [p = 0.0] succeeds on a uniform sample of [0.0]. *)
Example training_zero_probability_zero_sample :
  fst (call [ones; twos] (Some true) {| self := layer 0; rand := threshold 0 |})
  = Ok threes.
Proof. reflexivity. Qed.

Example roundtrip_half :
  from_config (<["survival_probability" := PyFloat 0.5]> named)
  = Some (Ok (layer 0.5)).
Proof. vm_compute. reflexivity. Qed.

End Examples.

(** ** Instances of the theorems *)

Section Witnesses.
Import Example.

Lemma call_inference_exact_witness :
  length ones = length twos
  /\ fst (call [ones; twos] (Some false)
            {| self := layer 0.5; rand := threshold 0.75 |})
     = Ok (zip_with (fun x y => F32.add x (F32.mul (F32.of_float 0.5) y))
                    ones twos).
Proof.
  split; [reflexivity |].
  apply (call_inference_exact (layer 0.5) ones twos (threshold 0.75)).
  reflexivity.
Defined.

Lemma call_training_outcomes_witness :
  exists t,
    call [ones; twos] (Some true) {| self := layer 0.5; rand := threshold 0.25 |}
    = (Ok t, {| self := layer 0.5; rand := advance (threshold 0.25) |})
    /\ Ok t = tensor_add ones twos.
Proof.
  exact (call_training_outcomes (layer 0.5) ones twos (threshold 0.25)
           eq_refl ltac:(repeat constructor)).
Defined.

Lemma call_training_endpoints_witness :
  call [ones; twos] (Some true) {| self := layer 1; rand := threshold 0.25 |}
  = (tensor_add ones twos, {| self := layer 1; rand := advance (threshold 0.25) |})
  /\ exists t,
       call [ones; twos] (Some true) {| self := layer 0; rand := threshold 0.25 |}
       = (Ok t, {| self := layer 0; rand := advance (threshold 0.25) |})
       /\ Forall3 dropped_value ones twos t.
Proof.
  split.
  - exact (proj1 (call_training_endpoints (layer 1) ones twos (threshold 0.25)
                    eq_refl ltac:(repeat constructor)) eq_refl).
  - exact (proj2 (call_training_endpoints (layer 0) ones twos (threshold 0.25)
                    eq_refl ltac:(repeat constructor)) eq_refl).
Defined.

Lemma get_config_roundtrip_witness :
  exists config,
    get_config {| self := layer 0.5; rand := threshold 0.25 |}
    = (Ok config, {| self := layer 0.5; rand := threshold 0.25 |})
    /\ config !! "survival_probability" = Some (PyFloat 0.5)
    /\ (forall k, k <> "survival_probability" -> config !! k = named !! k)
    /\ from_config config = Some (Ok (layer 0.5)).
Proof.
  apply (get_config_roundtrip (H := host)
           {| self := layer 0.5; rand := threshold 0.25 |} named).
  vm_compute. reflexivity.
Defined.

Lemma arity_error_precedes_draw_witness :
  call [ones; twos; threes] (Some true)
       {| self := layer 0.5; rand := threshold 0.25 |}
  = (Raise (ValueError (arity_message 3)),
     {| self := layer 0.5; rand := threshold 0.25 |})
  /\ rand (snd (call [ones; twos; threes] (Some true)
                  {| self := layer 0.5; rand := threshold 0.25 |}))
     = threshold 0.25
  /\ drawn (rand (snd (call [ones; twos; threes] (Some true)
                         {| self := layer 0.5; rand := threshold 0.25 |})))
     = 0%nat.
Proof.
  apply (arity_error_precedes_draw [ones; twos; threes] (Some true)
           {| self := layer 0.5; rand := threshold 0.25 |}).
  cbn. lia.
Defined.

Lemma survival_probability_is_kept_witness :
  __init__ (Some 0.25%float) named = Ok (layer 0.25)
  /\ survival_probability
       (self (run session {| self := layer 0.25; rand := threshold 0.5 |}))
     = 0.25%float.
Proof.
  assert (Hinit : __init__ (Some 0.25%float) named = Ok (layer 0.25))
    by (vm_compute; reflexivity).
  split; [exact Hinit |].
  exact (survival_probability_is_kept 0.25 named (layer 0.25) (threshold 0.5)
           session Hinit).
Defined.

(** A probability outside [0, 1] is stored like any other. *)
Lemma init_stores_probability_witness :
  __init__ (Some (-2.5)%float) named
  = Ok {| survival_probability := (-2.5)%float; base := named |}
  /\ __init__ None named
     = Ok {| survival_probability := 0.5%float; base := named |}.
Proof.
  apply (init_stores_probability (H := host) (-2.5) named named).
  vm_compute. reflexivity.
Defined.

End Witnesses.

(** ** Where the code and its description part *)

Section Counterexamples.
Import Example.

(** C2.  A dropped residual branch that holds an infinity turns the result
    into NaN: the call returns neither [a] nor [a + b]. *)
Lemma dropped_overflow_is_nan :
  length one = length overflowed
  /\ call [one; overflowed] (Some true)
          {| self := layer 0.5; rand := threshold 0.75 |}
     = (Ok [S754_nan], {| self := layer 0.5; rand := advance (threshold 0.75) |})
  /\ [S754_nan] <> one
  /\ Ok [S754_nan] <> tensor_add one overflowed.
Proof.
  split; [reflexivity |]. split; [reflexivity |].
  split; vm_compute; discriminate.
Qed.

(** C5.  With [survival_probability = 0.0] the draw still succeeds on a
    uniform sample of [0.0], since [0.0 <= 0.0]: the call returns [a + b].
    And when the draw fails on an overflowed residual, the call returns NaN.
    Neither is [a]. *)
Lemma zero_probability_does_not_return_shortcut :
  survival_probability (layer 0) = 0%float
  /\ length ones = length twos
  /\ fst (call [ones; twos] (Some true)
            {| self := layer 0; rand := threshold 0 |})
     = Ok threes
  /\ threes <> ones
  /\ length one = length overflowed
  /\ fst (call [one; overflowed] (Some true)
            {| self := layer 0; rand := threshold 0.25 |})
     = Ok [S754_nan]
  /\ [S754_nan] <> one.
Proof.
  repeat (split; [reflexivity |]).
  split; [vm_compute; discriminate |].
  repeat (split; [reflexivity |]).
  vm_compute. discriminate.
Qed.

(** C6.  A call in inference mode draws a sample all the same: the random
    backend has moved by one draw. *)
Lemma inference_call_draws :
  truthy None = false
  /\ drawn (rand {| self := layer 0.5; rand := threshold 0.75 |}) = 0%nat
  /\ drawn (rand (snd (call [ones; twos] None
                         {| self := layer 0.5; rand := threshold 0.75 |})))
     = 1%nat
  /\ snd (call [ones; twos] None {| self := layer 0.5; rand := threshold 0.75 |})
     <> {| self := layer 0.5; rand := threshold 0.75 |}.
Proof.
  split; [reflexivity |]. split; [reflexivity |]. split; [reflexivity |].
  intros Heq. apply (f_equal (fun w => drawn (rand w))) in Heq.
  cbn in Heq. discriminate.
Qed.

End Counterexamples.

(** * Beyond the contract *)

(** ** Strings *)

Section Messages.

Lemma append_dot_inj (s s' : string) : s +:+ "." = s' +:+ "." -> s = s'.
Proof.
  revert s'. induction s as [| c s IH]; intros [| c' s'] Heq; cbn in Heq.
  - reflexivity.
  - injection Heq as _ Heq. destruct s'; discriminate.
  - injection Heq as _ Heq. destruct s; discriminate.
  - injection Heq as -> Heq. f_equal. apply IH. exact Heq.
Qed.

(** Two lengths are printed alike only when they are equal. *)
Lemma repr_nat_inj (n m : nat) : repr_nat n = repr_nat m -> n = m.
Proof.
  unfold repr_nat. intros Heq.
  apply DecimalNat.Unsigned.to_uint_inj.
  apply (f_equal NilEmpty.uint_of_string) in Heq.
  rewrite !NilEmpty.usu in Heq. congruence.
Qed.

End Messages.

Section Beyond.
Context {K : Kernels} {H : HostLayer}.

(** ** The error message names the length *)

Lemma arity_message_inj (n m : nat) :
  arity_message n = arity_message m -> n = m.
Proof.
  unfold arity_message. intros Heq.
  apply String.app_inj in Heq.
  apply append_dot_inj in Heq.
  apply repr_nat_inj. exact Heq.
Qed.

(** The arity error tells the lengths apart: two inputs that are refused and
    differ in length are refused with different messages, in whatever mode and
    world they are passed. *)
Theorem arity_errors_differ (x y : list tensor) (training training' : option bool)
    (w w' : world) :
  length x <> 2%nat -> length y <> 2%nat -> length x <> length y ->
  fst (call x training w) <> fst (call y training' w').
Proof.
  intros Hx Hy Hxy.
  rewrite (call_wrong_arity x) by exact Hx.
  rewrite (call_wrong_arity y) by exact Hy.
  cbn [fst]. intros Heq.
  apply Hxy, arity_message_inj.
  set (mx := arity_message (length x)) in *.
  set (my := arity_message (length y)) in *.
  congruence.
Qed.

(** ** Inference depends on the object alone *)

Lemma call_inference_self x training w w' :
  truthy training = false -> self w = self w' ->
  fst (call x training w) = fst (call x training w').
Proof.
  intros Hfalsy Hself.
  destruct (Nat.eq_dec (length x) 2%nat) as [Hlen | Hlen].
  - apply length_2_inv in Hlen as (a & b & ->).
    rewrite !call_pair, Hfalsy, Hself. reflexivity.
  - rewrite !call_wrong_arity by exact Hlen. reflexivity.
Qed.

(** At test time the layer gives the same answer whatever has been done with
    it before: calls in any mode, failed calls and [get_config]s neither
    change the object nor leave anything in the random backend that the
    inference branch reads. *)
Theorem inference_ignores_history (x : list tensor) (training : option bool)
    (program : list invocation) (w : world) :
  truthy training = false ->
  fst (call x training (run program w)) = fst (call x training w).
Proof.
  intros Hfalsy. apply call_inference_self; [exact Hfalsy | apply run_self].
Qed.

(** ** The random backend over a program *)

Lemma invoke_rand i w :
  rand (invoke i w) = Nat.iter (draws_of i) advance (rand w).
Proof.
  destruct i as [x training |]; cbn [invoke draws_of].
  - destruct (Nat.eqb_spec (length x) 2) as [Hlen | Hlen].
    + apply length_2_inv in Hlen as (a & b & ->). rewrite call_pair. reflexivity.
    + rewrite call_wrong_arity by exact Hlen. reflexivity.
  - reflexivity.
Qed.

Lemma uniform_iter_advance n r :
  uniform (Nat.iter n advance r) = uniform r.
Proof.
  induction n as [| n IH]; [reflexivity |].
  change (Nat.iter (S n) advance r) with (advance (Nat.iter n advance r)).
  exact IH.
Qed.

Lemma drawn_iter_advance n r :
  drawn (Nat.iter n advance r) = (n + drawn r)%nat
  /\ outcome (Nat.iter n advance r) = outcome r.
Proof.
  split.
  - induction n as [| n IH]; [reflexivity |].
    change (Nat.iter (S n) advance r) with (advance (Nat.iter n advance r)).
    cbn [advance drawn]. rewrite IH. reflexivity.
  - unfold outcome. rewrite uniform_iter_advance. reflexivity.
Qed.

(** A program moves the random backend by one draw for each [call] on a
    two-element input, whatever the mode and whether or not the addition then
    fails, and by nothing else: calls refused for their arity and
    [get_config]s do not draw.  The source of the outcomes is never
    replaced. *)
Theorem run_counts_draws (program : list invocation) (w : world) :
  drawn (rand (run program w)) = (drawn (rand w) + draws program)%nat
  /\ outcome (rand (run program w)) = outcome (rand w).
Proof.
  revert w. induction program as [| i program IH]; intros w.
  - cbn. split; [lia | reflexivity].
  - change (run (i :: program) w) with (run program (invoke i w)).
    destruct (IH (invoke i w)) as [IHd IHo].
    rewrite IHd, IHo, invoke_rand.
    destruct (drawn_iter_advance (draws_of i) (rand w)) as [Hd Ho].
    rewrite Hd, Ho.
    change (draws (i :: program)) with (draws_of i + draws program)%nat.
    split; [lia | reflexivity].
Qed.

(** ** The configuration over a program *)

(** [get_config] reports the same mapping after any program as before it. *)
Theorem get_config_ignores_history (program : list invocation) (w : world) :
  fst (get_config (run program w)) = fst (get_config w).
Proof.
  rewrite !get_config_pure. cbn [fst]. rewrite run_self. reflexivity.
Qed.

(** The configuration is a fixed point of rebuilding: when the base class
    accepts the configuration without the layer's own key and reports it
    back, the layer built from [get_config]'s mapping has that very mapping as
    its configuration. *)
Theorem config_roundtrip_fixpoint (w : world) (config : gmap string pyval)
    (b' : Layer) :
  fst (get_config w) = Ok config ->
  Layer_init (delete "survival_probability" config) = Ok b' ->
  Layer_get_config b' = delete "survival_probability" config ->
  exists l',
    from_config config = Some (Ok l')
    /\ forall r, get_config {| self := l'; rand := r |}
                 = (Ok config, {| self := l'; rand := r |}).
Proof.
  intros Hconfig Hinit Hreport.
  rewrite get_config_pure, dict_merge_own in Hconfig. cbn [fst] in Hconfig.
  injection Hconfig as Hconfig.
  assert (Hkey : config !! "survival_probability"
                 = Some (PyFloat (survival_probability (self w)))).
  { rewrite <- Hconfig. apply lookup_insert_eq. }
  unfold from_config, __init__. rewrite Hkey, Hinit.
  eexists. split; [reflexivity |].
  intros r. rewrite get_config_pure, dict_merge_own.
  cbn [self survival_probability base]. rewrite Hreport.
  rewrite insert_delete_eq.
  rewrite insert_id by exact Hkey. reflexivity.
Qed.

(** ** Shapes and the ends of the range *)

(** On two tensors of one shape a call returns a tensor of that shape, in
    every mode and whatever is drawn. *)
Theorem call_keeps_shape (a b : tensor) (training : option bool) (w : world) :
  length a = length b ->
  exists t, fst (call [a; b] training w) = Ok t /\ length t = length a.
Proof.
  intros Hlen. rewrite call_pair. cbn [fst].
  destruct (truthy training);
    rewrite tensor_add_same_shape by (rewrite length_scalar_mul; exact Hlen);
    (eexists; split; [reflexivity |]);
    rewrite length_zip_with, length_scalar_mul; lia.
Qed.

(** With [survival_probability = 1.0] the layer is plain addition at test
    time, on tensors of one shape: [1.0] is a float32 value as it stands, and
    adding [1.0 * y] is adding [y] -- whether or not the kernels flush
    subnormals. *)
Theorem inference_at_one_is_addition (a b : tensor) (training : option bool)
    (w : world) :
  survival_probability (self w) = 1%float ->
  truthy training = false ->
  length a = length b ->
  Forall F32.valid b ->
  fst (call [a; b] training w) = tensor_add a b.
Proof.
  intros Hp Hfalsy Hlen Hvalid. rewrite call_pair, Hfalsy, Hp. cbn [fst].
  change (F32.of_float 1) with F32.one.
  rewrite !tensor_add_same_shape by (rewrite ?length_scalar_mul; exact Hlen).
  rewrite zip_add_scalar_mul_one by exact Hvalid. reflexivity.
Qed.

(** With [survival_probability = 0.0] the residual is still multiplied in at
    test time: the result holds the shortcut as the kernel reads it (the
    shortcut, or zero for a subnormal one where subnormals are flushed; a
    zero may come back as [+0.0]) where the residual is finite, and NaN where
    the residual is infinite or NaN. *)
Theorem inference_at_zero_drops (a b : tensor) (training : option bool)
    (w : world) :
  survival_probability (self w) = 0%float ->
  truthy training = false ->
  length a = length b ->
  exists t, fst (call [a; b] training w) = Ok t /\ Forall3 dropped_value a b t.
Proof.
  intros Hp Hfalsy Hlen. rewrite call_pair, Hfalsy, Hp. cbn [fst].
  change (F32.of_float 0) with F32.zero.
  rewrite tensor_add_same_shape by (rewrite length_scalar_mul; exact Hlen).
  eexists. split; [reflexivity |].
  apply zip_add_zero_dropped. exact Hlen.
Qed.

End Beyond.

Section BeyondWitnesses.
Import Example.

Lemma arity_errors_differ_witness :
  fst (call [ones] None {| self := layer 0.5; rand := threshold 0.25 |})
  <> fst (call [ones; twos; threes] (Some true)
            {| self := layer 0.5; rand := threshold 0.75 |}).
Proof.
  apply (arity_errors_differ [ones] [ones; twos; threes] None (Some true)
           {| self := layer 0.5; rand := threshold 0.25 |}
           {| self := layer 0.5; rand := threshold 0.75 |});
    cbn; lia.
Defined.

Lemma inference_ignores_history_witness :
  fst (call [ones; twos] None
         (run session {| self := layer 0.5; rand := threshold 0.25 |}))
  = fst (call [ones; twos] None {| self := layer 0.5; rand := threshold 0.25 |}).
Proof.
  exact (inference_ignores_history [ones; twos] None session
           {| self := layer 0.5; rand := threshold 0.25 |} eq_refl).
Defined.

Lemma config_roundtrip_fixpoint_witness :
  exists l',
    from_config (<["survival_probability" := PyFloat 0.5]> named) = Some (Ok l')
    /\ forall r, get_config {| self := l'; rand := r |}
                 = (Ok (<["survival_probability" := PyFloat 0.5]> named),
                    {| self := l'; rand := r |}).
Proof.
  apply (config_roundtrip_fixpoint (H := host)
           {| self := layer 0.5; rand := threshold 0.25 |}
           (<["survival_probability" := PyFloat 0.5]> named) named).
  - rewrite get_config_pure, dict_merge_own. reflexivity.
  - vm_compute. reflexivity.
  - vm_compute. reflexivity.
Defined.

Lemma call_keeps_shape_witness :
  exists t,
    fst (call [ones; twos] (Some true)
           {| self := layer 0.5; rand := threshold 0.25 |}) = Ok t
    /\ length t = length ones.
Proof.
  exact (call_keeps_shape ones twos (Some true)
           {| self := layer 0.5; rand := threshold 0.25 |} eq_refl).
Defined.

Lemma inference_at_one_is_addition_witness :
  fst (call [ones; twos] None {| self := layer 1; rand := threshold 0.25 |})
  = tensor_add ones twos.
Proof.
  apply (inference_at_one_is_addition ones twos None
           {| self := layer 1; rand := threshold 0.25 |});
    [reflexivity | reflexivity | reflexivity | repeat constructor].
Defined.

Lemma inference_at_zero_drops_witness :
  exists t,
    fst (call [one; overflowed] None {| self := layer 0; rand := threshold 0.25 |})
    = Ok t
    /\ Forall3 dropped_value one overflowed t.
Proof.
  apply (inference_at_zero_drops one overflowed None
           {| self := layer 0; rand := threshold 0.25 |});
    reflexivity.
Defined.

End BeyondWitnesses.
